(** * conanfile.py: the [XppConan] recipe

    A shallow embedding of the Conan recipe of the xpp project
    (class [XppConan]: its declarative attributes and the three methods
    [layout], [generate] and [build]) together with the properties of the
    build-configuration specification that can be settled on it.

    Python text is modelled by [string]; a character stands for one of the
    code points U+0000..U+00FF, on which [str.lower] is a per-character map
    that stays inside the range.  The recipe's methods mutate [self] and
    call into Conan's CMake tools, which may raise: they are written in a
    small state-and-exception monad over a [World] holding the recipe
    object, the files on disk and a log of what was written and invoked. *)

From Stdlib Require Import Ascii NArith ZArith Bool.
From stdpp Require Import base strings list gmap.

Local Open Scope N_scope.

(** ** Python strings *)

Module Py.

(** Upper-case letters among the first 256 code points: A-Z, and the
    Latin-1 capitals U+00C0..U+00DE except the multiplication sign. *)
Definition isupper (c : ascii) : bool :=
  let n := N_of_ascii c in
  ((65 <=? n) && (n <=? 90)) ||
  ((192 <=? n) && (n <=? 222) && negb (n =? 215)).

(** [str.lower] on one character: every upper-case letter of the range
    has its lower-case form 32 code points further. *)
Definition lower_char (c : ascii) : ascii :=
  if isupper c then ascii_of_N (N_of_ascii c + 32) else c.

(** [str.lower()] *)
Fixpoint lower (s : string) : string :=
  match s with
  | EmptyString => EmptyString
  | String c s' => String (lower_char c) (lower s')
  end.

(** Whether a text contains an upper-case letter. *)
Fixpoint has_upper (s : string) : bool :=
  match s with
  | EmptyString => false
  | String c s' => isupper c || has_upper s'
  end.

(** [s.split(sep)] for a one-character separator: the pieces between the
    separators, empty pieces included; never the empty list. *)
Fixpoint split (sep : ascii) (s : string) : list string :=
  match s with
  | EmptyString => [EmptyString]
  | String c s' =>
      if Ascii.eqb c sep then EmptyString :: split sep s'
      else match split sep s' with
           | [] => [String c EmptyString]
           | piece :: pieces => String c piece :: pieces
           end
  end.

(** [s.partition(sep)], without the separator: the text before the first
    separator and the text after it; [None] when there is no separator. *)
Fixpoint partition (sep : ascii) (s : string) : option (string * string) :=
  match s with
  | EmptyString => None
  | String c s' =>
      if Ascii.eqb c sep then Some (EmptyString, s')
      else match partition sep s' with
           | Some (before, after) => Some (String c before, after)
           | None => None
           end
  end.

(** The values that occur in the recipe's option tables. *)
Inductive value : Type :=
  | VNone
  | VBool (b : bool)
  | VStr (s : string).

#[global] Instance value_eq_dec : EqDecision value.
Proof. solve_decision. Defined.

End Py.

(** ** Paths *)

Module Path.

Definition slash : ascii := "/"%char.

(** The components of a path text, as [text.split("/")] gives them. *)
Definition components (p : string) : list string := Py.split slash p.

(** A path is absolute when its text starts with the separator. *)
Definition is_absolute (p : string) : bool :=
  match p with
  | String c _ => Ascii.eqb c slash
  | EmptyString => false
  end.

(** A component that names a directory entry: not empty and neither of the
    two special names. *)
Definition names_entry (c : string) : bool :=
  negb (String.eqb c "") && negb (String.eqb c ".") && negb (String.eqb c "..").

(** The components that matter for where a path points: empty components
    (doubled or trailing separators) and "." are dropped, as POSIX path
    resolution does; ".." is kept as it is. *)
Definition parts (p : string) : list string :=
  filter (fun c => negb (String.eqb c "") && negb (String.eqb c ".") = true)
         (components p).

(** [strip_prefix pre l] is what is left of [l] after [pre], when [l]
    starts with [pre]. *)
Fixpoint strip_prefix (pre l : list string) : option (list string) :=
  match pre, l with
  | [], _ => Some l
  | _ :: _, [] => None
  | x :: pre', y :: l' => if String.eqb x y then strip_prefix pre' l' else None
  end.

(** [sub_path parent child]: [child] lies strictly inside [parent].  Both
    are absolute or both relative (to the same base), and the parts of
    [child] are the parts of [parent] followed by at least one further
    part, all of them naming entries. *)
Definition sub_path (parent child : string) : bool :=
  Bool.eqb (is_absolute parent) (is_absolute child) &&
  match strip_prefix (parts parent) (parts child) with
  | Some (c :: rest) => forallb names_entry (c :: rest)
  | _ => false
  end.

End Path.

(** ** The recipe's data *)

(** [settings = "os", "compiler", "build_type", "arch"]: the four settings
    of the target profile; [str(...)] of a setting is its text. *)
Record Settings : Type := mkSettings {
  os : string;
  compiler : string;
  build_type : string;
  arch : string
}.

(** The profile a recipe is instantiated with: settings and option values. *)
Record Profile : Type := mkProfile {
  settings : Settings;
  options : gmap string Py.value
}.

(** [self.folders], with the three attributes the recipe assigns. *)
Record Folders : Type := mkFolders {
  folders_build : string;
  folders_generators : string;
  folders_source : string
}.

(** The recipe object [self]. *)
Record ConanFile : Type := mkConanFile {
  name : string;
  version : string;
  profile : Profile;
  requires : list string;
  folders : Folders
}.

(** ** Files, subprocesses and exceptions *)

Definition bytes : Type := list Byte.byte.

Inductive Category : Type := Toolchain | DependencyLocator.

#[global] Instance Category_eq_dec : EqDecision Category.
Proof. solve_decision. Defined.

(** A generated file: which tool wrote it, where, and what. *)
Record Descriptor : Type := mkDescriptor {
  category : Category;
  path : string;
  content : bytes
}.

Inductive Phase : Type := Configure | Build.

#[global] Instance Phase_eq_dec : EqDecision Phase.
Proof. solve_decision. Defined.

(** What is kept of one run of an external process. *)
Record InvocationResult : Type := mkInvocationResult {
  phase : Phase;
  exit_code : Z;
  stdout : bytes;
  stderr : bytes
}.

(** What a finished subprocess hands back: its status, its output and the
    files as it left them. *)
Record Completed : Type := mkCompleted {
  returncode : Z;
  out : bytes;
  err : bytes;
  disk_after : gmap string bytes
}.

(** The exceptions the Conan tools raise into the recipe. *)
Inductive Exn : Type :=
  | GenerationError (c : Category) (cause : string)
  | ExternalFailure (ph : Phase) (r : InvocationResult).

Inductive Result (A : Type) : Type :=
  | Ok (a : A)
  | Raise (e : Exn).
Arguments Ok {A} a.
Arguments Raise {A} e.

(** Everything a method of the recipe can read or change. *)
Record World : Type := mkWorld {
  self : ConanFile;
  disk : gmap string bytes;
  written : list Descriptor;
  invoked : list InvocationResult
}.

(** ** The monad of recipe methods *)

Definition M (A : Type) : Type := World -> Result A * World.

#[global] Instance M_ret : MRet M := fun A a w => (Ok a, w).

#[global] Instance M_bind : MBind M := fun A B k m w =>
  match m w with
  | (Ok a, w') => k a w'
  | (Raise e, w') => (Raise e, w')
  end.

Definition raise {A : Type} (e : Exn) : M A := fun w => (Raise e, w).

Definition get_self : M ConanFile := fun w => (Ok (self w), w).

Definition set_folders (f : Folders -> Folders) : M unit := fun w =>
  let s := self w in
  (Ok tt,
   mkWorld (mkConanFile (name s) (version s) (profile s) (requires s)
                        (f (folders s)))
           (disk w) (written w) (invoked w)).

(** [self.folders.build = v] and its two siblings. *)
Definition set_build (v : string) : M unit :=
  set_folders (fun f => mkFolders v (folders_generators f) (folders_source f)).
Definition set_generators (v : string) : M unit :=
  set_folders (fun f => mkFolders (folders_build f) v (folders_source f)).
Definition set_source (v : string) : M unit :=
  set_folders (fun f => mkFolders (folders_build f) (folders_generators f) v).

(** Writing (or overwriting) one generated file. *)
Definition write_file (c : Category) (p : string) (b : bytes) : M unit :=
  fun w =>
    (Ok tt,
     mkWorld (self w) (<[p := b]> (disk w))
             (written w ++ [mkDescriptor c p b]) (invoked w)).

(** A [for] loop over a list, stopping at the first exception. *)
Fixpoint for_each {A : Type} (body : A -> M unit) (l : list A) : M unit :=
  match l with
  | [] => mret tt
  | x :: l' => body x ;; for_each body l'
  end.

(** ** The class [XppConan] *)

Module XppConan.

Definition name : string := "xpp".
Definition version : string := "1.0".

(** [options = {"shared": [True, False]}] *)
Definition options : gmap string (list Py.value) :=
  {[ "shared" := [Py.VBool true; Py.VBool false] ]}.

(** [default_options = {"shared": False}] *)
Definition default_options : gmap string Py.value :=
  {[ "shared" := Py.VBool false ]}.

(** [requires = [...]] *)
Definition requires : list string :=
  [ "spdlog/1.14.1";
    "drogon/1.9.11";
    "nlohmann_json/3.11.3";
    "yaml-cpp/0.8.0";
    "protobuf/3.21.12";
    "sqlite3/3.44.0";
    "boost/1.83.0";
    "gtest/1.17.0" ].

(** The recipe object for a profile, before any method has run. *)
Definition new (p : Profile) : ConanFile :=
  mkConanFile name version p requires (mkFolders "" "" "").

(** [def layout(self)] *)
Definition layout : M unit :=
  s ← get_self;
  let build_type := Py.lower (build_type (settings (profile s))) in
  set_build build_type ;;
  set_generators (build_type +:+ "/generators") ;;
  set_source ".".

End XppConan.

(** ** Conan's CMake tools

    The recipe imports [CMakeToolchain], [CMakeDeps] and [CMake] from
    Conan.  What these tools compute is not part of the recipe and is
    taken as a parameter: the text they render for the recipe object they
    are given, and the subprocess they start. *)

Class ConanTools : Type := {
  (** what the toolchain tool does for a recipe object and a generator
      name ([None] when the recipe names none): the files it writes, by
      name and in order, and the cause of its failure when it fails, which
      may be after it has written some of them *)
  render_toolchain :
    ConanFile -> option string -> list (string * bytes) * option string;
  (** for one requirement, the name and text of its locator file, or the
      cause of a failure *)
  locate_dependency : ConanFile -> string -> string + (string * bytes);
  (** running the external program of a phase in the current world *)
  subprocess : Phase -> World -> Completed
}.

(** A [CMakeToolchain] object: a reference to the recipe (read from the
    world when it is used) and the [generator] attribute. *)
Record CMakeToolchain : Type := mkCMakeToolchain {
  generator : option string
}.

(** [tc.generator = g] *)
Definition set_generator (g : string) (tc : CMakeToolchain) : CMakeToolchain :=
  mkCMakeToolchain (Some g).

Inductive CMakeDeps : Type := mkCMakeDeps.
Inductive CMake : Type := mkCMake.

Section Tools.
Context {tools : ConanTools}.

(** [CMakeToolchain(self)] *)
Definition CMakeToolchain_new : M CMakeToolchain :=
  mret (mkCMakeToolchain None).

(** Writing files of one category into a folder, in order. *)
Definition write_files (c : Category) (dir : string)
    (files : list (string * bytes)) : M unit :=
  for_each (fun f => write_file c (dir +:+ "/" +:+ f.1) f.2) files.

(** Modelled from the spec: [tc.generate()] of Conan's toolchain tool,
    which is not part of the recipe.  It writes its files for the recipe
    object and the generator it was given under the generators folder; it
    may fail after having written some of them, the partial output stays
    on disk, and the failure is a [GenerationError] for its category. *)
Definition CMakeToolchain_generate (tc : CMakeToolchain) : M unit :=
  s ← get_self;
  let out := render_toolchain s (generator tc) in
  write_files Toolchain (folders_generators (folders s)) out.1 ;;
  match out.2 with
  | Some cause => raise (GenerationError Toolchain cause)
  | None => mret tt
  end.

(** [CMakeDeps(self)] *)
Definition CMakeDeps_new : M CMakeDeps := mret mkCMakeDeps.

(** Modelled from the spec: [deps.generate()] of Conan's dependency tool,
    which is not part of the recipe.  For each requirement of the recipe,
    in order, it emits one locator descriptor under the generators folder;
    the first failure is a [GenerationError] and ends the loop. *)
Definition CMakeDeps_generate (deps : CMakeDeps) : M unit :=
  s ← get_self;
  for_each
    (fun ref =>
       match locate_dependency s ref with
       | inl cause => raise (GenerationError DependencyLocator cause)
       | inr (file, text) =>
           write_file DependencyLocator
             (folders_generators (folders s) +:+ "/" +:+ file) text
       end)
    (requires s).

(** [CMake(self)] *)
Definition CMake_new : M CMake := mret mkCMake.

(** Modelled from the spec: one external phase of Conan's [CMake] helper,
    which is not part of the recipe.  The subprocess runs to completion,
    its result is recorded, and a non-zero exit code is raised as an
    [ExternalFailure] of that phase carrying the result. *)
Definition CMake_run (ph : Phase) : M unit := fun w =>
  let c := subprocess ph w in
  let r := mkInvocationResult ph (returncode c) (out c) (err c) in
  let w' := mkWorld (self w) (disk_after c) (written w) (invoked w ++ [r]) in
  if Z.eqb (returncode c) 0 then (Ok tt, w')
  else (Raise (ExternalFailure ph r), w').

(** [cmake.configure()] and [cmake.build()] *)
Definition CMake_configure (cmake : CMake) : M unit := CMake_run Configure.
Definition CMake_build (cmake : CMake) : M unit := CMake_run Build.

(** [def generate(self)] *)
Definition generate : M unit :=
  tc ← CMakeToolchain_new;
  let tc := set_generator "Ninja" tc in
  CMakeToolchain_generate tc ;;
  deps ← CMakeDeps_new;
  CMakeDeps_generate deps.

(** [def build(self)] *)
Definition build : M unit :=
  cmake ← CMake_new;
  CMake_configure cmake ;;
  CMake_build cmake.

(** The recipe's methods in the order Conan calls them: the layout, then
    the generators, and the external build only when it is asked for;
    without it the run is generation-only.  The recipe has no step of its
    own before the layout. *)
Definition run (invoke_external : bool) : M unit :=
  XppConan.layout ;;
  generate ;;
  if invoke_external then build else mret tt.

End Tools.

(** The world a run for profile [p] starts in: a fresh recipe object, the
    files that are already there and empty logs. *)
Definition start (p : Profile) (files : gmap string bytes) : World :=
  mkWorld (XppConan.new p) files [] [].

(** The phases that were started, in order. *)
Definition phases (w : World) : list Phase := map phase (invoked w).

(** ** Dependency references *)

(** An entry of a dependency declaration. *)
Record Entry : Type := mkEntry {
  entry_name : string;
  version_spec : string
}.

(** A reference [name/version] read as an entry: split at the first "/". *)
Definition parse_reference (ref : string) : option Entry :=
  match Py.partition Path.slash ref with
  | Some (n, v) => Some (mkEntry n v)
  | None => None
  end.

(** The declaration a list of references stands for, when all of them
    parse. *)
Definition declaration (refs : list string) : option (list Entry) :=
  mapM parse_reference refs.

(** Well-formedness of a declaration: names and version specs are not
    empty, and no name occurs twice. *)
Definition well_formed (es : list Entry) : Prop :=
  Forall (fun e => entry_name e ≠ "" ∧ version_spec e ≠ "") es ∧
  NoDup (map entry_name es).

(** ** Views used by the statements *)

(** The layout a profile resolves to: the folders of a fresh recipe object
    after [layout] has run. *)
Definition resolve (p : Profile) : Folders :=
  folders (self (XppConan.layout (start p ∅)).2).

(** The recipe object of a profile once its layout is resolved. *)
Definition laid_out (p : Profile) : ConanFile :=
  mkConanFile XppConan.name XppConan.version p XppConan.requires (resolve p).

(** The files after a sequence of writes, in order. *)
Definition apply_writes (ds : list Descriptor) (files : gmap string bytes)
  : gmap string bytes :=
  foldl (fun m d => <[path d := content d]> m) files ds.

(** [writes P m]: all [m] does to the world is write files, each of them
    a descriptor satisfying [P].  For each recipe object there are one
    result and one sequence of descriptors, whatever the files and the
    logs were before. *)
Definition writes {A : Type} (P : Descriptor → Prop) (m : M A) : Prop :=
  ∀ s : ConanFile, ∃ (r : Result A) (ds : list Descriptor),
    Forall P ds ∧
    ∀ w : World, self w = s →
      m w = (r, mkWorld s (apply_writes ds (disk w)) (written w ++ ds)
                        (invoked w)).

(** ** Sample inputs *)

(** A stand-in for the Conan tools, as a test would stub them: the
    toolchain text spells out the settings and the generator, each
    requirement gets a locator file named after it, and the configure
    subprocess exits with the given status without touching any file. *)
Definition stub_tools (configure_status : Z) : ConanTools := {|
  render_toolchain := fun s g =>
    let st := settings (profile s) in
    ([("conan_toolchain.cmake",
       String.list_byte_of_string
         (os st +:+ ";" +:+ compiler st +:+ ";" +:+ arch st +:+ ";" +:+
          build_type st +:+ ";" +:+ default "" g));
      ("CMakePresets.json", String.list_byte_of_string (default "" g))],
     None);
  locate_dependency := fun s ref =>
    match parse_reference ref with
    | Some e => inr (entry_name e +:+ "-config.cmake",
                     String.list_byte_of_string (version_spec e))
    | None => inl ref
    end;
  subprocess := fun ph w =>
    mkCompleted (match ph with Configure => configure_status | Build => 0%Z end)
                [] [] (disk w)
|}.

Definition linux_release : Profile :=
  mkProfile (mkSettings "linux" "gcc-13" "Release" "x86_64")
            {[ "shared" := Py.VBool false ]}.

Definition windows_release : Profile :=
  mkProfile (mkSettings "windows" "msvc" "RELEASE" "armv8")
            {[ "shared" := Py.VBool true ]}.

(** A profile whose variant is the empty text. *)
Definition no_variant : Profile :=
  mkProfile (mkSettings "linux" "gcc-13" "" "x86_64") ∅.

(** A profile whose variant is no known build type. *)
Definition odd_variant : Profile :=
  mkProfile (mkSettings "linux" "gcc-13" "Bogus" "x86_64") ∅.

(** ** Further views and sample inputs *)

(** Two texts that differ at most in the case of their letters. *)
Fixpoint same_up_to_case (s t : string) : bool :=
  match s, t with
  | EmptyString, EmptyString => true
  | String c s', String d t' =>
      (Ascii.eqb c d || Ascii.eqb (Py.lower_char c) d ||
       Ascii.eqb c (Py.lower_char d)) && same_up_to_case s' t'
  | _, _ => false
  end.

(** Stand-in tools whose two subprocesses exit with the given statuses;
    each leaves a log file named after its phase in the build folder. *)
Definition phase_tools (configure_status build_status : Z) : ConanTools := {|
  render_toolchain := render_toolchain (ConanTools := stub_tools 0);
  locate_dependency := locate_dependency (ConanTools := stub_tools 0);
  subprocess := fun ph w =>
    let '(status, log) :=
      match ph with
      | Configure => (configure_status, "configure.log")
      | Build => (build_status, "build.log")
      end in
    mkCompleted status [] []
      (<[folders_build (folders (self w)) +:+ "/" +:+ log := []]> (disk w))
|}.

(** Stand-in tools whose toolchain tool fails after it has written its
    first file. *)
Definition broken_toolchain_tools : ConanTools := {|
  render_toolchain := fun s g =>
    (take 1 (render_toolchain (ConanTools := stub_tools 0) s g).1,
     Some "no compiler found");
  locate_dependency := locate_dependency (ConanTools := stub_tools 0);
  subprocess := subprocess (ConanTools := stub_tools 0)
|}.

Definition linux_debug : Profile :=
  mkProfile (mkSettings "linux" "gcc-13" "Debug" "x86_64")
            {[ "shared" := Py.VBool false ]}.

(** A profile whose variant is already in lower case. *)
Definition linux_lower : Profile :=
  mkProfile (mkSettings "linux" "gcc-13" "relwithdebinfo" "x86_64") ∅.

(** Stand-in tools that agree with [stub_tools 0] whenever a generator is
    named, refuse to render a toolchain without one, and whose
    subprocesses both exit with 7. *)
Definition fussy_tools : ConanTools := {|
  render_toolchain := fun s g =>
    match g with
    | None => ([], Some "no generator chosen")
    | Some _ => render_toolchain (ConanTools := stub_tools 0) s g
    end;
  locate_dependency := locate_dependency (ConanTools := stub_tools 0);
  subprocess := subprocess (ConanTools := phase_tools 7 7)
|}.

(** ** Python strings: lemmas *)

Module PyFacts.

Lemma lower_char_not_upper (c : ascii) : Py.isupper (Py.lower_char c) = false.
Proof. destruct c as [[] [] [] [] [] [] [] []]; reflexivity. Qed.

Lemma lower_not_upper (s : string) : Py.has_upper (Py.lower s) = false.
Proof.
  induction s as [|c s IH]; simpl; [reflexivity|].
  now rewrite lower_char_not_upper, IH.
Qed.

Lemma lower_fixed (s : string) : Py.has_upper s = false → Py.lower s = s.
Proof.
  induction s as [|c s IH]; simpl; [reflexivity|].
  intros [Hc Hs]%orb_false_iff. unfold Py.lower_char.
  now rewrite Hc, IH.
Qed.

Lemma lower_idempotent (s : string) : Py.lower (Py.lower s) = Py.lower s.
Proof. apply lower_fixed, lower_not_upper. Qed.

Lemma lower_empty_iff (s : string) : Py.lower s = "" ↔ s = "".
Proof. destruct s; simpl; split; intros H; congruence. Qed.

Lemma lower_length (s : string) :
  String.length (Py.lower s) = String.length s.
Proof. induction s as [|c s IH]; simpl; congruence. Qed.

Lemma split_not_nil (sep : ascii) (s : string) : Py.split sep s ≠ [].
Proof.
  destruct s as [|c s]; simpl; [discriminate|].
  destruct (Ascii.eqb c sep); [discriminate|].
  destruct (Py.split sep s); discriminate.
Qed.

(** Splitting a text that is put together around a separator. *)
Lemma split_app (sep : ascii) (a b : string) :
  Py.split sep (a +:+ String sep b) = Py.split sep a ++ Py.split sep b.
Proof.
  induction a as [|c a IH]; simpl.
  - now rewrite Ascii.eqb_refl.
  - destruct (Ascii.eqb c sep); [now rewrite IH|].
    rewrite IH. pose proof (split_not_nil sep a) as Hne.
    destruct (Py.split sep a); [contradiction|reflexivity].
Qed.

End PyFacts.

(** ** Paths: lemmas *)

Module PathFacts.

Lemma strip_prefix_app (l r : list string) :
  Path.strip_prefix l (l ++ r) = Some r.
Proof.
  induction l as [|x l IH]; simpl; [reflexivity|].
  now rewrite String.eqb_refl.
Qed.

Lemma is_absolute_app (a b : string) :
  a ≠ "" → Path.is_absolute (a +:+ b) = Path.is_absolute a.
Proof. destruct a; [contradiction|reflexivity]. Qed.

Lemma parts_app (a b : string) :
  Path.parts (a +:+ "/" +:+ b) = Path.parts a ++ Path.parts b.
Proof.
  unfold Path.parts, Path.components.
  change ("/" +:+ b) with (String Path.slash b).
  now rewrite PyFacts.split_app, filter_app.
Qed.

Lemma names_entry_kept (l : list string) :
  forallb Path.names_entry l = true →
  filter (fun c => negb (String.eqb c "") && negb (String.eqb c ".") = true) l
  = l.
Proof.
  induction l as [|x l IH]; simpl; [reflexivity|].
  intros [Hx Hl]%andb_true_iff. rewrite filter_cons, (IH Hl).
  unfold Path.names_entry in Hx. apply andb_true_iff in Hx as [Hx _].
  now rewrite decide_True.
Qed.

(** A path extended by further entries lies strictly inside it. *)
Lemma sub_path_extend (parent rest : string) :
  parent ≠ "" →
  forallb Path.names_entry (Path.components rest) = true →
  Path.sub_path parent (parent +:+ "/" +:+ rest) = true.
Proof.
  intros Hne Hrest. unfold Path.sub_path.
  rewrite (is_absolute_app _ _ Hne), Bool.eqb_reflx, parts_app.
  rewrite strip_prefix_app. unfold Path.parts at 1.
  rewrite (names_entry_kept _ Hrest).
  pose proof (PyFacts.split_not_nil Path.slash rest) as Hnil.
  unfold Path.components in *.
  destruct (Py.split Path.slash rest); [contradiction|exact Hrest].
Qed.

End PathFacts.

(** ** The layout *)

(** What [layout] does to a world: it never raises, assigns the three
    folders and leaves everything else as it was. *)
Lemma layout_run (w : World) :
  let s := self w in
  let v := Py.lower (build_type (settings (profile s))) in
  XppConan.layout w =
  (Ok tt,
   mkWorld (mkConanFile (name s) (version s) (profile s) (requires s)
                        (mkFolders v (v +:+ "/generators") "."))
           (disk w) (written w) (invoked w)).
Proof. reflexivity. Qed.

Lemma resolve_eq (p : Profile) :
  let v := Py.lower (build_type (settings p)) in
  resolve p = mkFolders v (v +:+ "/generators") ".".
Proof. reflexivity. Qed.

Lemma layout_start (p : Profile) (files : gmap string bytes) :
  XppConan.layout (start p files) = (Ok tt, mkWorld (laid_out p) files [] []).
Proof. reflexivity. Qed.

(** C1.  For every profile, in whatever state the recipe object is,
    [layout] returns without raising, and afterwards the build folder is
    the variant in lower case (it contains no upper-case letter), the
    generators folder is the build folder joined by "/" with "generators",
    and the source folder is ".". *)
Theorem layout_resolves (w : World) :
  ∃ w' : World,
    XppConan.layout w = (Ok tt, w') ∧
    let variant := Py.lower (build_type (settings (profile (self w)))) in
    Py.has_upper variant = false ∧
    folders_build (folders (self w')) = variant ∧
    folders_generators (folders (self w')) =
      folders_build (folders (self w')) +:+ "/" +:+ "generators" ∧
    folders_source (folders (self w')) = "." ∧
    profile (self w') = profile (self w).
Proof.
  eexists. split; [apply layout_run|]. simpl.
  repeat split. apply PyFacts.lower_not_upper.
Qed.

(** C3.  Two profiles whose variants are the same text once in lower case
    resolve to the same build folder, and to the same layout altogether,
    whatever their os, compiler and architecture are (they may all
    differ). *)
Theorem layout_ignores_platform (p1 p2 : Profile) :
  Py.lower (build_type (settings p1)) = Py.lower (build_type (settings p2)) →
  folders_build (resolve p1) = folders_build (resolve p2) ∧
  resolve p1 = resolve p2.
Proof. intros H. rewrite !resolve_eq. simpl. now rewrite H. Qed.

Lemma layout_ignores_platform_witness :
  os (settings linux_release) ≠ os (settings windows_release) ∧
  compiler (settings linux_release) ≠ compiler (settings windows_release) ∧
  arch (settings linux_release) ≠ arch (settings windows_release) ∧
  Py.lower (build_type (settings linux_release)) =
    Py.lower (build_type (settings windows_release)) ∧
  folders_build (resolve linux_release) = folders_build (resolve windows_release) ∧
  resolve linux_release = resolve windows_release.
Proof.
  do 3 (split; [discriminate|]). split; [reflexivity|].
  apply (layout_ignores_platform linux_release windows_release).
  reflexivity.
Defined.

(** Away from the empty variant the nesting holds: for every profile
    whose variant is not the empty text, the generators folder lies
    strictly inside the build folder. *)
Theorem generators_inside_build (p : Profile) :
  build_type (settings p) ≠ "" →
  Path.sub_path (folders_build (resolve p)) (folders_generators (resolve p))
  = true.
Proof.
  intros Hne. rewrite resolve_eq. simpl.
  apply (PathFacts.sub_path_extend _ "generators"); [|reflexivity].
  now rewrite PyFacts.lower_empty_iff.
Qed.

Lemma generators_inside_build_witness :
  build_type (settings linux_release) ≠ "" ∧
  Path.sub_path (folders_build (resolve linux_release))
                (folders_generators (resolve linux_release)) = true.
Proof.
  split; [discriminate|].
  apply (generators_inside_build linux_release). discriminate.
Defined.


(** C5, as the recipe has it.  The layout puts no default in the place of
    a variant: the build folder is the variant in lower case whatever the
    variant is, and it is the empty text exactly when the variant is. *)
Theorem build_folder_no_default (p : Profile) :
  folders_build (resolve p) = Py.lower (build_type (settings p)) ∧
  (folders_build (resolve p) = "" ↔ build_type (settings p) = "").
Proof. rewrite resolve_eq. simpl. split; [reflexivity|apply PyFacts.lower_empty_iff]. Qed.

(** C5 fails: an empty variant resolves to an empty build folder, and a
    variant that is no known build type is used under its own name. *)
Lemma no_default_for_empty_variant :
  build_type (settings no_variant) = "" ∧
  folders_build (resolve no_variant) = "" ∧
  folders_build (resolve odd_variant) = "bogus".
Proof. repeat split. Qed.

(** ** Sequences of writes *)

Lemma apply_writes_app (a b : list Descriptor) (m : gmap string bytes) :
  apply_writes (a ++ b) m = apply_writes b (apply_writes a m).
Proof. apply foldl_app. Qed.

(** ** Methods that only write *)

Lemma bind_Ok {A B : Type} (m : M A) (k : A → M B) (w w' : World) (a : A) :
  m w = (Ok a, w') → (m ≫= k) w = k a w'.
Proof. intros H. unfold mbind, M_bind. now rewrite H. Qed.

Lemma bind_Raise {A B : Type} (m : M A) (k : A → M B) (w w' : World)
    (e : Exn) :
  m w = (Raise e, w') → (m ≫= k) w = (Raise e, w').
Proof. intros H. unfold mbind, M_bind. now rewrite H. Qed.

Lemma world_eta (w : World) :
  mkWorld (self w) (disk w) (written w) (invoked w) = w.
Proof. now destruct w. Qed.

Lemma writes_ret {A : Type} (P : Descriptor → Prop) (a : A) :
  writes P (mret a).
Proof.
  intros s. exists (Ok a), []. split; [constructor|].
  intros w <-. unfold mret, M_ret. simpl.
  now rewrite app_nil_r, world_eta.
Qed.

Lemma writes_raise {A : Type} (P : Descriptor → Prop) (e : Exn) :
  writes P (raise (A := A) e).
Proof.
  intros s. exists (Raise e), []. split; [constructor|].
  intros w <-. unfold raise. simpl. now rewrite app_nil_r, world_eta.
Qed.

Lemma writes_write_file (P : Descriptor → Prop) (c : Category) (p : string)
    (b : bytes) :
  P (mkDescriptor c p b) → writes P (write_file c p b).
Proof.
  intros HP s. exists (Ok tt), [mkDescriptor c p b].
  split; [now repeat constructor|]. now intros w <-.
Qed.

Lemma writes_bind {A B : Type} (P : Descriptor → Prop) (m : M A)
    (k : A → M B) :
  writes P m → (∀ a, writes P (k a)) → writes P (m ≫= k).
Proof.
  intros Hm Hk s. destruct (Hm s) as (r & ds & HP & Hrun).
  destruct r as [a|e].
  - destruct (Hk a s) as (r' & ds' & HP' & Hrun').
    exists r', (ds ++ ds'). split; [now apply Forall_app|].
    intros w Hw. rewrite (bind_Ok _ _ _ _ _ (Hrun w Hw)).
    rewrite Hrun' by reflexivity. simpl.
    now rewrite apply_writes_app, app_assoc.
  - exists (Raise e), ds. split; [exact HP|].
    intros w Hw. now rewrite (bind_Raise _ _ _ _ _ (Hrun w Hw)).
Qed.

(** Reading [self] and going on with it. *)
Lemma writes_with_self {A : Type} (P : Descriptor → Prop)
    (k : ConanFile → M A) :
  (∀ s, writes P (k s)) → writes P (get_self ≫= k).
Proof.
  intros Hk s. destruct (Hk s s) as (r & ds & HP & Hrun).
  exists r, ds. split; [exact HP|].
  intros w Hw. rewrite (bind_Ok _ _ w w (self w)); [|reflexivity].
  rewrite Hw. now apply Hrun.
Qed.

Lemma writes_for_each {A : Type} (P : Descriptor → Prop) (body : A → M unit)
    (l : list A) :
  (∀ x, writes P (body x)) → writes P (for_each body l).
Proof.
  intros Hbody. induction l as [|x l IH]; simpl.
  - apply writes_ret.
  - apply writes_bind; [apply Hbody|]. intros _. exact IH.
Qed.

Section Generation.
Context {tools : ConanTools}.

Lemma writes_CMakeDeps_generate (deps : CMakeDeps) :
  writes (fun d => category d = DependencyLocator) (CMakeDeps_generate deps).
Proof.
  apply writes_with_self. intros s. apply writes_for_each. intros ref.
  destruct (locate_dependency s ref) as [cause|[file text]].
  - apply writes_raise.
  - now apply writes_write_file.
Qed.

Lemma writes_CMakeToolchain_generate (tc : CMakeToolchain) :
  writes (fun d => category d = Toolchain) (CMakeToolchain_generate tc).
Proof.
  apply writes_with_self. intros s. apply writes_bind.
  - apply writes_for_each. intros f. now apply writes_write_file.
  - intros _. destruct (render_toolchain s (generator tc)).2.
    + apply writes_raise.
    + apply writes_ret.
Qed.

Lemma writes_weaken {A : Type} (P Q : Descriptor → Prop) (m : M A) :
  (∀ d, P d → Q d) → writes P m → writes Q m.
Proof.
  intros HPQ Hm s. destruct (Hm s) as (r & ds & HP & Hrun).
  exists r, ds. split; [|exact Hrun]. eapply Forall_impl; eauto.
Qed.

Lemma writes_generate : writes (fun _ => True) generate.
Proof.
  unfold generate. apply writes_bind; [apply writes_ret|]. intros tc.
  apply writes_bind.
  - eapply writes_weaken; [|apply writes_CMakeToolchain_generate]. done.
  - intros _. apply writes_bind; [apply writes_ret|]. intros deps.
    eapply writes_weaken; [|apply writes_CMakeDeps_generate]. done.
Qed.

End Generation.

Section Orchestration.
Context {tools : ConanTools}.

(** What [build] does when the configure subprocess fails: the failure is
    raised with the recorded result, which is the only invocation added. *)
Lemma build_configure_fails (w : World) :
  returncode (subprocess Configure w) ≠ 0%Z →
  let c := subprocess Configure w in
  let r := mkInvocationResult Configure (returncode c) (out c) (err c) in
  build w =
  (Raise (ExternalFailure Configure r),
   mkWorld (self w) (disk_after c) (written w) (invoked w ++ [r])).
Proof.
  intros Hne. simpl. unfold build, CMake_new.
  rewrite (bind_Ok _ _ w w mkCMake) by reflexivity.
  erewrite bind_Raise; [reflexivity|].
  unfold CMake_configure, CMake_run.
  destruct (Z.eqb_spec (returncode (subprocess Configure w)) 0);
    [contradiction|reflexivity].
Qed.

End Orchestration.

(** ** The orchestrated run *)

(** C2.  When the layout and the generators have succeeded and the
    configure subprocess then exits with a non-zero code, the run with the
    external build stops there: it raises [ExternalFailure] for the
    configure phase with the recorded result, and that result is the only
    invocation the run has made, so the build subprocess is never
    started. *)
Theorem configure_failure_stops `{tools : ConanTools} (w wg : World) :
  (XppConan.layout ;; generate) w = (Ok tt, wg) →
  returncode (subprocess Configure wg) ≠ 0%Z →
  ∃ (r : InvocationResult) (w' : World),
    run true w = (Raise (ExternalFailure Configure r), w') ∧
    phase r = Configure ∧
    exit_code r = returncode (subprocess Configure wg) ∧
    exit_code r ≠ 0%Z ∧
    invoked w' = invoked w ++ [r] ∧
    phases w' = phases w ++ [Configure].
Proof.
  intros Hgen Hne.
  assert (Hlay : XppConan.layout w = (Ok tt, (XppConan.layout w).2))
    by reflexivity.
  assert (Hinv : invoked (XppConan.layout w).2 = invoked w) by reflexivity.
  remember (XppConan.layout w).2 as w1 eqn:Hw1. clear Hw1.
  rewrite (bind_Ok _ _ _ _ _ Hlay) in Hgen.
  destruct (writes_generate (self w1)) as (r0 & ds & _ & Hrun).
  specialize (Hrun w1 eq_refl). rewrite Hrun in Hgen.
  injection Hgen as -> <-.
  eexists _, _. split.
  - unfold run. rewrite (bind_Ok _ _ _ _ _ Hlay), (bind_Ok _ _ _ _ _ Hrun).
    exact (build_configure_fails _ Hne).
  - simpl. do 2 (split; [reflexivity|]). split; [exact Hne|].
    unfold phases. simpl. rewrite Hinv, map_app. now split.
Qed.

Lemma configure_failure_stops_witness :
  let w := start linux_release ∅ in
  let wg := ((XppConan.layout ;; generate (tools := stub_tools 1)) w).2 in
  (XppConan.layout ;; generate (tools := stub_tools 1)) w = (Ok tt, wg) ∧
  returncode (subprocess (ConanTools := stub_tools 1) Configure wg) ≠ 0%Z ∧
  ∃ (r : InvocationResult) (w' : World),
    run (tools := stub_tools 1) true w =
      (Raise (ExternalFailure Configure r), w') ∧
    phase r = Configure ∧
    exit_code r =
      returncode (subprocess (ConanTools := stub_tools 1) Configure wg) ∧
    exit_code r ≠ 0%Z ∧
    invoked w' = invoked w ++ [r] ∧
    phases w' = phases w ++ [Configure].
Proof.
  intros w wg.
  assert (Hgen : (XppConan.layout ;; generate (tools := stub_tools 1)) w
                 = (Ok tt, wg)) by (vm_compute; reflexivity).
  assert (Hne : returncode
                  (subprocess (ConanTools := stub_tools 1) Configure wg)
                ≠ 0%Z) by discriminate.
  split; [exact Hgen|]. split; [exact Hne|].
  exact (configure_failure_stops (tools := stub_tools 1) w wg Hgen Hne).
Defined.

Lemma generators_folder_not_empty (v : string) : v +:+ "/generators" ≠ "".
Proof. destruct v; discriminate. Qed.

(** ** The declarative attributes *)

(** C10.  The requirements the recipe declares all read as a name and a
    version, and the declaration they make is well-formed: no name and no
    version spec is empty, and no two entries have the same name. *)
Theorem requires_well_formed :
  ∃ es : list Entry,
    declaration XppConan.requires = Some es ∧ well_formed es.
Proof.
  eexists. split; [reflexivity|]. split.
  - repeat constructor; discriminate.
  - apply (bool_decide_unpack _). vm_compute. reflexivity.
Qed.

(** ** Further properties of [layout] *)

Lemma lower_char_idempotent (c : ascii) :
  Py.lower_char (Py.lower_char c) = Py.lower_char c.
Proof.
  unfold Py.lower_char at 1. now rewrite PyFacts.lower_char_not_upper.
Qed.

Lemma same_up_to_case_lower (s t : string) :
  same_up_to_case s t = true → Py.lower s = Py.lower t.
Proof.
  revert t. induction s as [|c s IH]; intros [|d t]; simpl; try discriminate;
    [reflexivity|].
  intros [Hc Hs]%andb_true_iff. rewrite (IH t Hs). f_equal.
  apply orb_true_iff in Hc as [Hc|Hc];
    [apply orb_true_iff in Hc as [Hc|Hc]|]; apply Ascii.eqb_eq in Hc.
  - now subst.
  - subst d. now rewrite lower_char_idempotent.
  - subst c. now rewrite lower_char_idempotent.
Qed.

Lemma append_length (a b : string) :
  String.length (a +:+ b) = (String.length a + String.length b)%nat.
Proof. induction a as [|c a IH]; simpl; [reflexivity|now rewrite IH]. Qed.

(** A common ending can be taken off both sides. *)
Lemma append_cancel_r (a b c : string) : a +:+ c = b +:+ c → a = b.
Proof.
  revert b. induction a as [|x a IH]; intros [|y b] H; simpl in H.
  - reflexivity.
  - apply (f_equal String.length) in H.
    rewrite !append_length in H. simpl in H. lia.
  - apply (f_equal String.length) in H.
    rewrite !append_length in H. simpl in H. lia.
  - injection H as -> H. f_equal. now apply IH.
Qed.

Lemma has_upper_app (a b : string) :
  Py.has_upper (a +:+ b) = Py.has_upper a || Py.has_upper b.
Proof.
  induction a as [|c a IH]; simpl; [reflexivity|].
  now rewrite IH, orb_assoc.
Qed.

(** X1.  [layout] assigns all three folders afresh: running it a second
    time changes nothing, and whatever the folders were set to before it
    runs has no influence on the world it leaves. *)
Theorem layout_overwrites_folders (w : World) (f : Folders → Folders) :
  (XppConan.layout ;; XppConan.layout) w = XppConan.layout w ∧
  (set_folders f ;; XppConan.layout) w = XppConan.layout w.
Proof. split; reflexivity. Qed.

(** X2.  The build folder texts of two profiles are equal exactly when
    their variants are the same text once in lower case, and the same
    holds for the texts of their generators folders and for their whole
    layouts.  This compares the folder texts as [layout] assigns them;
    different texts can still name the same directory. *)
Theorem folders_shared_iff (p1 p2 : Profile) :
  let v1 := Py.lower (build_type (settings p1)) in
  let v2 := Py.lower (build_type (settings p2)) in
  (folders_build (resolve p1) = folders_build (resolve p2) ↔ v1 = v2) ∧
  (folders_generators (resolve p1) = folders_generators (resolve p2)
   ↔ v1 = v2) ∧
  (resolve p1 = resolve p2 ↔ v1 = v2).
Proof.
  rewrite !resolve_eq. simpl. split; [tauto|]. split; split.
  - apply append_cancel_r.
  - now intros ->.
  - now intros [= -> _].
  - now intros ->.
Qed.

(** X3.  The layout does not look at the case of the variant: profiles
    whose variants differ at most in the case of their letters resolve to
    the same layout. *)
Theorem layout_case_insensitive (p1 p2 : Profile) :
  same_up_to_case (build_type (settings p1)) (build_type (settings p2)) = true →
  resolve p1 = resolve p2.
Proof.
  intros H%same_up_to_case_lower. rewrite !resolve_eq. simpl. now rewrite H.
Qed.

Lemma layout_case_insensitive_witness :
  same_up_to_case (build_type (settings linux_release))
                  (build_type (settings windows_release)) = true ∧
  resolve linux_release = resolve windows_release.
Proof.
  split; [reflexivity|].
  apply (layout_case_insensitive linux_release windows_release). reflexivity.
Defined.

(** X4.  A variant that has no upper-case letter is used as it is: it is
    the build folder, and the generators folder is "generators" under
    it. *)
Theorem lower_case_variant_kept (p : Profile) :
  Py.has_upper (build_type (settings p)) = false →
  folders_build (resolve p) = build_type (settings p) ∧
  folders_generators (resolve p) = build_type (settings p) +:+ "/generators".
Proof.
  intros H%PyFacts.lower_fixed. rewrite resolve_eq. simpl. now rewrite H.
Qed.

Lemma lower_case_variant_kept_witness :
  Py.has_upper (build_type (settings linux_lower)) = false ∧
  folders_build (resolve linux_lower) = "relwithdebinfo" ∧
  folders_generators (resolve linux_lower) = "relwithdebinfo/generators".
Proof.
  split; [reflexivity|].
  apply (lower_case_variant_kept linux_lower). reflexivity.
Defined.

(** X5.  For every profile, the empty variant included, the generators
    folder is not empty, is a different text from the build folder and
    from the source folder, and contains no upper-case letter. *)
Theorem generators_folder_distinct (p : Profile) :
  folders_generators (resolve p) ≠ "" ∧
  folders_generators (resolve p) ≠ folders_build (resolve p) ∧
  folders_generators (resolve p) ≠ folders_source (resolve p) ∧
  Py.has_upper (folders_generators (resolve p)) = false.
Proof.
  rewrite resolve_eq. simpl.
  set (v := Py.lower (build_type (settings p))).
  split; [apply generators_folder_not_empty|]. split; [|split].
  - intros H. apply (f_equal String.length) in H.
    rewrite append_length in H. simpl in H. lia.
  - intros H. apply (f_equal String.length) in H.
    rewrite append_length in H. simpl in H. lia.
  - rewrite has_upper_app. unfold v. now rewrite PyFacts.lower_not_upper.
Qed.

(** ** Further properties of [generate] *)

(** The descriptors the toolchain tool's files become under a folder. *)
Lemma write_files_run (c : Category) (dir : string)
    (files : list (string * bytes)) (w : World) :
  let ds := map (fun f => mkDescriptor c (dir +:+ "/" +:+ f.1) f.2) files in
  write_files c dir files w =
  (Ok tt, mkWorld (self w) (apply_writes ds (disk w)) (written w ++ ds)
                  (invoked w)).
Proof.
  cbv zeta. unfold write_files. revert w.
  induction files as [|f files IH]; intros w; simpl.
  - unfold mret, M_ret. now rewrite app_nil_r, world_eta.
  - erewrite bind_Ok by reflexivity. rewrite IH. simpl.
    now rewrite <- app_assoc.
Qed.

(** X6.  When the toolchain tool fails, [generate] raises its failure as a
    [GenerationError] of the toolchain and stops there: the dependency
    tool is never run, so the only files written are those the toolchain
    tool had written before it failed, which stay on disk. *)
Theorem generate_toolchain_failure `{tools : ConanTools} (w : World)
    (files : list (string * bytes)) (cause : string) :
  render_toolchain (self w) (Some "Ninja") = (files, Some cause) →
  let ds := map (fun f => mkDescriptor Toolchain
                            (folders_generators (folders (self w)) +:+
                             "/" +:+ f.1) f.2) files in
  generate w =
    (Raise (GenerationError Toolchain cause),
     mkWorld (self w) (apply_writes ds (disk w)) (written w ++ ds)
             (invoked w)).
Proof.
  intros Hrender. cbv zeta.
  unfold generate, CMakeToolchain_new, set_generator.
  rewrite (bind_Ok _ _ w w (mkCMakeToolchain None)) by reflexivity.
  erewrite bind_Raise; [reflexivity|].
  unfold CMakeToolchain_generate.
  rewrite (bind_Ok _ _ w w (self w)) by reflexivity.
  cbn [generator]. rewrite Hrender. cbn [fst snd].
  erewrite bind_Ok by apply write_files_run. reflexivity.
Qed.

Lemma generate_toolchain_failure_witness :
  let w := mkWorld (laid_out linux_release) ∅ [] [] in
  let text := String.list_byte_of_string "linux;gcc-13;x86_64;Release;Ninja" in
  let d := mkDescriptor Toolchain "release/generators/conan_toolchain.cmake"
                        text in
  render_toolchain (ConanTools := broken_toolchain_tools) (self w)
                   (Some "Ninja")
    = ([("conan_toolchain.cmake", text)], Some "no compiler found") ∧
  generate (tools := broken_toolchain_tools) w =
    (Raise (GenerationError Toolchain "no compiler found"),
     mkWorld (self w) (<[path d := text]> ∅) [d] []).
Proof.
  intros w text d. split; [reflexivity|].
  apply (generate_toolchain_failure (tools := broken_toolchain_tools) w
           [("conan_toolchain.cmake", text)]).
  reflexivity.
Defined.

(** ** Further properties of [build] *)

Section BuildFacts.
Context {tools : ConanTools}.

(** The world the configure subprocess leaves behind. *)
Lemma CMake_run_world (ph : Phase) (w : World) :
  let c := subprocess ph w in
  let r := mkInvocationResult ph (returncode c) (out c) (err c) in
  (CMake_run ph w).2 =
  mkWorld (self w) (disk_after c) (written w) (invoked w ++ [r]).
Proof. simpl. unfold CMake_run. now destruct (Z.eqb _ 0). Qed.

(** After a configure subprocess that exits with 0, [build] goes on with
    the build subprocess in the world configure left. *)
Lemma build_after_configure (w : World) :
  returncode (subprocess Configure w) = 0%Z →
  build w = CMake_run Build (CMake_run Configure w).2.
Proof.
  intros Hzero. unfold build, CMake_new.
  rewrite (bind_Ok _ _ w w mkCMake) by reflexivity.
  rewrite (bind_Ok _ _ w (CMake_run Configure w).2 tt); [reflexivity|].
  unfold CMake_configure, CMake_run. now rewrite Hzero.
Qed.

End BuildFacts.

(** X9.  When the configure subprocess exits with 0, [build] starts the
    build subprocess on the files configure left; when that exits with 0
    too, [build] returns normally, having recorded the two invocations in
    this order, and the files are as the build subprocess left them. *)
Theorem build_succeeds `{tools : ConanTools} (w : World) :
  let c := subprocess Configure w in
  let rc := mkInvocationResult Configure (returncode c) (out c) (err c) in
  let w1 := mkWorld (self w) (disk_after c) (written w) (invoked w ++ [rc]) in
  let b := subprocess Build w1 in
  let rb := mkInvocationResult Build (returncode b) (out b) (err b) in
  returncode c = 0%Z →
  returncode b = 0%Z →
  build w =
    (Ok tt,
     mkWorld (self w) (disk_after b) (written w) (invoked w ++ [rc; rb])).
Proof.
  intros c rc w1 b rb Hc Hb.
  rewrite (build_after_configure w Hc), CMake_run_world. fold c rc w1.
  unfold CMake_run. fold b rb. rewrite Hb. simpl.
  now rewrite <- app_assoc.
Qed.

Lemma build_succeeds_witness :
  let w := mkWorld (laid_out linux_release) ∅ [] [] in
  let ok ph := mkInvocationResult ph 0%Z [] [] in
  returncode (subprocess (ConanTools := phase_tools 0 0) Configure w) = 0%Z ∧
  build (tools := phase_tools 0 0) w =
    (Ok tt,
     mkWorld (self w)
             (<["release/build.log" := []]>
                (<["release/configure.log" := []]> ∅))
             [] [ok Configure; ok Build]).
Proof.
  intros w ok. split; [reflexivity|].
  apply (build_succeeds (tools := phase_tools 0 0) w); reflexivity.
Defined.

(** X10.  When the configure subprocess exits with 0 and the build
    subprocess with another code, [build] raises [ExternalFailure] for
    the build phase, carrying that exit code and the captured output;
    both invocations are on record and the files are as the build
    subprocess left them. *)
Theorem build_phase_failure `{tools : ConanTools} (w : World) :
  let c := subprocess Configure w in
  let rc := mkInvocationResult Configure (returncode c) (out c) (err c) in
  let w1 := mkWorld (self w) (disk_after c) (written w) (invoked w ++ [rc]) in
  let b := subprocess Build w1 in
  let rb := mkInvocationResult Build (returncode b) (out b) (err b) in
  returncode c = 0%Z →
  returncode b ≠ 0%Z →
  build w =
    (Raise (ExternalFailure Build rb),
     mkWorld (self w) (disk_after b) (written w) (invoked w ++ [rc; rb])).
Proof.
  intros c rc w1 b rb Hc Hb.
  rewrite (build_after_configure w Hc), CMake_run_world. fold c rc w1.
  unfold CMake_run. fold b rb.
  destruct (Z.eqb_spec (returncode b) 0); [contradiction|]. simpl.
  now rewrite <- app_assoc.
Qed.

Lemma build_phase_failure_witness :
  let w := mkWorld (laid_out linux_release) ∅ [] [] in
  returncode (subprocess (ConanTools := phase_tools 0 2) Configure w) = 0%Z ∧
  build (tools := phase_tools 0 2) w =
    (Raise (ExternalFailure Build (mkInvocationResult Build 2%Z [] [])),
     mkWorld (self w)
             (<["release/build.log" := []]>
                (<["release/configure.log" := []]> ∅))
             [] [mkInvocationResult Configure 0%Z [] [];
                 mkInvocationResult Build 2%Z [] []]).
Proof.
  intros w. split; [reflexivity|].
  apply (build_phase_failure (tools := phase_tools 0 2) w);
    [reflexivity|discriminate].
Defined.


(** ** What [generate] asks of the tools *)

Lemma for_each_ext {A : Type} (f g : A → M unit) (l : list A) (w : World) :
  (∀ x w', x ∈ l → f x w' = g x w') → for_each f l w = for_each g l w.
Proof.
  revert w. induction l as [|x l IH]; intros w Hfg; simpl; [reflexivity|].
  unfold mbind, M_bind. rewrite (Hfg x w) by now left.
  destruct (g x w) as [[[]|e] w']; [|reflexivity].
  apply IH. intros y w'' Hy. apply Hfg. now right.
Qed.

Lemma generate_unfold `{tools : ConanTools} (w : World) :
  generate w =
  let (r, w') := CMakeToolchain_generate (mkCMakeToolchain (Some "Ninja")) w in
  match r with
  | Ok _ => CMakeDeps_generate mkCMakeDeps w'
  | Raise e => (Raise e, w')
  end.
Proof. reflexivity. Qed.

Lemma CMakeToolchain_generate_ext (t1 t2 : ConanTools) (tc : CMakeToolchain)
    (w : World) :
  render_toolchain (ConanTools := t1) (self w) (generator tc) =
    render_toolchain (ConanTools := t2) (self w) (generator tc) →
  CMakeToolchain_generate (tools := t1) tc w =
  CMakeToolchain_generate (tools := t2) tc w.
Proof.
  intros Hrender. unfold CMakeToolchain_generate.
  rewrite !(bind_Ok _ _ w w (self w)) by reflexivity.
  now rewrite Hrender.
Qed.

Lemma CMakeDeps_generate_ext (t1 t2 : ConanTools) (deps : CMakeDeps)
    (w : World) :
  (∀ ref, ref ∈ requires (self w) →
     locate_dependency (ConanTools := t1) (self w) ref =
     locate_dependency (ConanTools := t2) (self w) ref) →
  CMakeDeps_generate (tools := t1) deps w =
  CMakeDeps_generate (tools := t2) deps w.
Proof.
  intros Hlocate. unfold CMakeDeps_generate.
  rewrite !(bind_Ok _ _ w w (self w)) by reflexivity.
  apply for_each_ext. intros ref w' Href. now rewrite (Hlocate ref Href).
Qed.

(** X12.  [generate] consults the tools only for what the toolchain tool
    does for the recipe object with the generator "Ninja" and for the
    locators of the recipe object's requirements: two
    sets of tools that agree on these make [generate] behave the same,
    whatever they would render for another generator or for none, and
    whatever their subprocesses do. *)
Theorem generate_asks_for_ninja (t1 t2 : ConanTools) (w : World) :
  render_toolchain (ConanTools := t1) (self w) (Some "Ninja") =
    render_toolchain (ConanTools := t2) (self w) (Some "Ninja") →
  (∀ ref, ref ∈ requires (self w) →
     locate_dependency (ConanTools := t1) (self w) ref =
     locate_dependency (ConanTools := t2) (self w) ref) →
  generate (tools := t1) w = generate (tools := t2) w.
Proof.
  intros Hrender Hlocate. rewrite !generate_unfold.
  rewrite (CMakeToolchain_generate_ext t1 t2 (mkCMakeToolchain (Some "Ninja"))
             w Hrender).
  destruct (writes_CMakeToolchain_generate (tools := t2)
              (mkCMakeToolchain (Some "Ninja")) (self w))
    as (r & ds & _ & Hrun).
  rewrite (Hrun w eq_refl). destruct r as [[]|e]; [|reflexivity].
  apply CMakeDeps_generate_ext. exact Hlocate.
Qed.

Lemma generate_asks_for_ninja_witness :
  let w := mkWorld (laid_out linux_release) ∅ [] [] in
  render_toolchain (ConanTools := fussy_tools) (self w) None ≠
    render_toolchain (ConanTools := stub_tools 0) (self w) None ∧
  generate (tools := fussy_tools) w = generate (tools := stub_tools 0) w.
Proof.
  intros w. split; [discriminate|].
  apply (generate_asks_for_ninja fussy_tools (stub_tools 0) w);
    reflexivity.
Defined.
